(** * returns.maybe: the [Maybe] container

    A shallow embedding of [src/returns/maybe.py] and the properties of its
    two variants [_Some] and [_Nothing].

    Python objects are values of [pyval]; an instance of a subclass of
    [Maybe] is a value of the type [Maybe].  A piece of Python code is a
    computation of [prog]: it returns, raises, or calls a host object and
    goes on with the answer.  Callables handed to the container are
    functions into [prog], so that whether, and how often, they are invoked
    is visible in the computation.  Containers are never mutated, so an
    object is identified with its value: the container an exception carries,
    or the object a method hands back, is that value. *)

From Stdlib Require Import List String ZArith Bool.
Import ListNotations.

Local Open Scope string_scope.
Local Open Scope Z_scope.
Local Open Scope list_scope.

(** ** Python values *)

(** The objects the container is used with.  A value of [Maybe] is an
    instance of [_Some] (with its [_inner_value]) or of [_Nothing], whose
    [_inner_value] is always [None]: [_Nothing.__init__] drops its argument
    and stores [None]. *)
#[warnings="-register-all"]
Inductive pyval : Type :=
| PNone
| PInt (z : Z)
| PStr (s : string)
| PTuple (items : list pyval)
| PFun (name : string)
| PMaybe (m : Maybe)
with Maybe : Type :=
| SomeObj (inner_value : pyval)
| NothingObj.

(** Keyword arguments of a call, in call order. *)
Definition keywords := list (string * pyval).

(** Exceptions: the one this module raises, and those of the host (a
    [ValueError('Nothing!')] of a fallback, a [ZeroDivisionError], a
    [TypeError] on a call of something that is not callable). *)
Inductive exn : Type :=
| UnwrapFailedError (halted_container : Maybe)
| PyException (cls : string) (args : list pyval).

(** ** Computations *)

Inductive prog (A : Type) : Type :=
| Ret (a : A)
| Raise (e : exn)
| Call (callee : pyval) (args : list pyval) (kw : keywords) (k : pyval -> prog A).

Arguments Ret {A} a.
Arguments Raise {A} e.
Arguments Call {A} callee args kw k.

Fixpoint pbind {A B : Type} (p : prog A) (f : A -> prog B) : prog B :=
  match p with
  | Ret a => f a
  | Raise e => Raise e
  | Call c a kw k => Call c a kw (fun r => pbind (k r) f)
  end.

Notation "x <- p ;; q" := (pbind p (fun x => q))
  (at level 61, p at next level, right associativity).

(** A Python callable: positional arguments, keyword arguments, a
    computation of the result. *)
Definition callable := list pyval -> keywords -> prog pyval.

(** Calling a host object with positional and keyword arguments: the host
    answers with a value or an exception. *)
Definition py_call (f : pyval) : callable :=
  fun args kw => Call f args kw Ret.

(** [lambda a: body]. *)
Definition lambda1 (body : pyval -> prog pyval) : callable :=
  fun args kw =>
    match args, kw with
    | [a], [] => body a
    | _, _ => Raise (PyException "TypeError" [])
    end.

(** [lambda: body]. *)
Definition lambda0 (body : prog pyval) : callable :=
  fun args kw =>
    match args, kw with
    | [], [] => body
    | _, _ => Raise (PyException "TypeError" [])
    end.

(** A pure function of one argument. *)
Definition pure1 (f : pyval -> pyval) : callable :=
  lambda1 (fun a => Ret (f a)).

(** [lambda a: a]. *)
Definition identity : callable := lambda1 (fun a => Ret a).

(** [lambda a: g(f(a))]. *)
Definition compose (g f : callable) : callable :=
  lambda1 (fun a => b <- f [a] [] ;; g [b] []).

(** *** Running a computation against a host *)

Inductive outcome (A : Type) : Type :=
| Returned (a : A)
| Raised (e : exn).

Arguments Returned {A} a.
Arguments Raised {A} e.

(** One call of a host object and what it answered. *)
Record event : Type := mkEvent {
  ev_callee : pyval;
  ev_args : list pyval;
  ev_kwargs : keywords;
  ev_answer : outcome pyval
}.

Section Host.

(** The state of the user's program and the meaning of a call in it. *)
Variable State : Type.
Variable host : pyval -> list pyval -> keywords -> State -> outcome pyval * State.

(** No [try] is written anywhere in the module: an exception ends the
    run. The third component is the list of host calls made, in order. *)
Fixpoint run {A : Type} (p : prog A) (s : State)
  : outcome A * State * list event :=
  match p with
  | Ret a => (Returned a, s, [])
  | Raise e => (Raised e, s, [])
  | Call c a kw k =>
      let '(r, s1) := host c a kw s in
      match r with
      | Returned v =>
          let '(o, s2, tr) := run (k v) s1 in
          (o, s2, mkEvent c a kw r :: tr)
      | Raised e => (Raised e, s1, [mkEvent c a kw r])
      end
  end.

End Host.

Arguments run {State} host {A} p s.

(** The exceptions a computation raises by itself, whatever the host
    answers: the [Raise] nodes of its tree. *)
Inductive raises_itself {A : Type} : prog A -> exn -> Prop :=
| raises_here (e : exn) : raises_itself (Raise e) e
| raises_after (c : pyval) (a : list pyval) (kw : keywords)
    (k : pyval -> prog A) (r : pyval) (e : exn) :
    raises_itself (k r) e -> raises_itself (Call c a kw k) e.

(** ** Equality of values *)

(** Modelled from the spec: [BaseContainer.__eq__] (in
    [returns.primitives.container]) is not among the sources.  Two containers
    are equal iff they are of the same variant and, for [_Some], their
    payloads are equal.  Payloads are compared as Python compares the values
    of [pyval]: structurally, a function object with itself only. *)
Fixpoint py_eq (a b : pyval) {struct a} : bool :=
  match a, b with
  | PNone, PNone => true
  | PInt x, PInt y => Z.eqb x y
  | PStr x, PStr y => String.eqb x y
  | PTuple xs, PTuple ys =>
      (fix items_eq (xs ys : list pyval) {struct xs} : bool :=
         match xs, ys with
         | [], [] => true
         | x :: xs', y :: ys' => py_eq x y && items_eq xs' ys'
         | _, _ => false
         end) xs ys
  | PFun f, PFun g => String.eqb f g
  | PMaybe m, PMaybe n => BaseContainer_eq m n
  | _, _ => false
  end
with BaseContainer_eq (self other : Maybe) {struct self} : bool :=
  match self, other with
  | SomeObj x, SomeObj y => py_eq x y
  | NothingObj, NothingObj => true
  | _, _ => false
  end.

(** [p] returns a container equal to [x]. *)
Definition returns_equal (p : prog Maybe) (x : Maybe) : Prop :=
  exists y, p = Ret y /\ BaseContainer_eq y x = true.

(** [p] returns an object equal to [x]. *)
Definition returns_equal_object (p : prog pyval) (x : pyval) : Prop :=
  exists y, p = Ret y /\ py_eq y x = true.

(** [p] and [q] both return, and the containers they return are equal. *)
Definition equal_results (p q : prog Maybe) : Prop :=
  exists y z, p = Ret y /\ q = Ret z /\ BaseContainer_eq y z = true.

(** Induction on values, through the items of a tuple. *)
Section ValueInduction.

Variable P : pyval -> Prop.
Variable Q : Maybe -> Prop.
Hypothesis HNone : P PNone.
Hypothesis HInt : forall z, P (PInt z).
Hypothesis HStr : forall s, P (PStr s).
Hypothesis HTuple : forall items, Forall P items -> P (PTuple items).
Hypothesis HFun : forall name, P (PFun name).
Hypothesis HMaybe : forall m, Q m -> P (PMaybe m).
Hypothesis HSome : forall v, P v -> Q (SomeObj v).
Hypothesis HNothing : Q NothingObj.

Fixpoint pyval_induction (v : pyval) : P v :=
  match v with
  | PNone => HNone
  | PInt z => HInt z
  | PStr s => HStr s
  | PTuple items =>
      HTuple items
        ((fix all (l : list pyval) : Forall P l :=
            match l with
            | [] => Forall_nil P
            | x :: l' => Forall_cons x (pyval_induction x) (all l')
            end) items)
  | PFun name => HFun name
  | PMaybe m => HMaybe m (Maybe_induction m)
  end
with Maybe_induction (m : Maybe) : Q m :=
  match m with
  | SomeObj v => HSome v (pyval_induction v)
  | NothingObj => HNothing
  end.

End ValueInduction.

(** ** The module [returns.maybe] *)

(** The classes of the module, for [isinstance] and [cls]. *)
Inductive pyclass : Type := cls_Maybe | cls_Some | cls_Nothing.

Definition type_of (m : Maybe) : pyclass :=
  match m with
  | SomeObj _ => cls_Some
  | NothingObj => cls_Nothing
  end.

(** [isinstance(m, cls)]: both variants are final subclasses of [Maybe]. *)
Definition isinstance (m : Maybe) (cls : pyclass) : bool :=
  match cls, type_of m with
  | cls_Maybe, _ => true
  | cls_Some, cls_Some => true
  | cls_Nothing, cls_Nothing => true
  | _, _ => false
  end.

(** [Maybe.success_type] and [Maybe.failure_type], set after both classes. *)
Definition success_type : pyclass := cls_Some.
Definition failure_type : pyclass := cls_Nothing.

(** [self._inner_value]. *)
Definition _inner_value (self : Maybe) : pyval :=
  match self with
  | SomeObj v => v
  | NothingObj => PNone
  end.

Definition is_None (v : pyval) : bool :=
  match v with
  | PNone => true
  | _ => false
  end.

(** [_Nothing(inner_value)]: [__init__] passes [None] to the base class. *)
Definition _Nothing (inner_value : pyval) : Maybe := NothingObj.

(** [_Some(inner_value)]: the private constructor, which stores what it is
    given. *)
Definition _Some (inner_value : pyval) : Maybe := SomeObj inner_value.

(** [Maybe.from_value]. *)
Definition Maybe_from_value (inner_value : pyval) : Maybe :=
  if is_None inner_value then _Nothing inner_value else _Some inner_value.

(** *** [_Nothing] *)

Definition _Nothing_map (self : Maybe) (function : callable) : prog Maybe :=
  Ret self.

Definition _Nothing_apply (self : Maybe) (container : pyval) : prog pyval :=
  Ret (PMaybe self).

Definition _Nothing_bind (self : Maybe) (function : callable) : prog pyval :=
  Ret (PMaybe self).

Definition _Nothing_value_or (self : Maybe) (default_value : pyval) : prog pyval :=
  Ret default_value.

Definition _Nothing_or_else_call (self : Maybe) (function : callable) : prog pyval :=
  function [] [].

Definition _Nothing_unwrap (self : Maybe) : prog pyval :=
  Raise (UnwrapFailedError self).

Definition _Nothing_failure (self : Maybe) : prog pyval :=
  Ret (_inner_value self).

(** *** [_Some] *)

Definition _Some_map (self : Maybe) (function : callable) : prog Maybe :=
  r <- function [_inner_value self] [] ;;
  Ret (Maybe_from_value r).

Definition _Some_bind (self : Maybe) (function : callable) : prog pyval :=
  function [_inner_value self] [].

Definition _Some_value_or (self : Maybe) (default_value : pyval) : prog pyval :=
  Ret (_inner_value self).

Definition _Some_or_else_call (self : Maybe) (function : callable) : prog pyval :=
  Ret (_inner_value self).

Definition _Some_unwrap (self : Maybe) : prog pyval :=
  Ret (_inner_value self).

Definition _Some_failure (self : Maybe) : prog pyval :=
  Raise (UnwrapFailedError self).

(** *** Method calls on a [Maybe]: dispatch on the class of [self] *)

Definition Maybe_map (self : Maybe) (function : callable) : prog Maybe :=
  match self with
  | NothingObj => _Nothing_map self function
  | SomeObj _ => _Some_map self function
  end.

Definition Maybe_unwrap (self : Maybe) : prog pyval :=
  match self with
  | NothingObj => _Nothing_unwrap self
  | SomeObj _ => _Some_unwrap self
  end.

(** [_Some.apply]: the argument is any object; one that is a [_Some] is
    unwrapped and its payload called through [self.map]. *)
Definition _Some_apply (self : Maybe) (container : pyval) : prog pyval :=
  match container with
  | PMaybe c =>
      if isinstance c success_type
      then
        function <- Maybe_unwrap c ;;
        r <- Maybe_map self (py_call function) ;;
        Ret (PMaybe r)
      else Ret container
  | _ => Ret container
  end.

Definition Maybe_apply (self : Maybe) (container : pyval) : prog pyval :=
  match self with
  | NothingObj => _Nothing_apply self container
  | SomeObj _ => _Some_apply self container
  end.

Definition Maybe_bind (self : Maybe) (function : callable) : prog pyval :=
  match self with
  | NothingObj => _Nothing_bind self function
  | SomeObj _ => _Some_bind self function
  end.

Definition Maybe_value_or (self : Maybe) (default_value : pyval) : prog pyval :=
  match self with
  | NothingObj => _Nothing_value_or self default_value
  | SomeObj _ => _Some_value_or self default_value
  end.

Definition Maybe_or_else_call (self : Maybe) (function : callable) : prog pyval :=
  match self with
  | NothingObj => _Nothing_or_else_call self function
  | SomeObj _ => _Some_or_else_call self function
  end.

Definition Maybe_failure (self : Maybe) : prog pyval :=
  match self with
  | NothingObj => _Nothing_failure self
  | SomeObj _ => _Some_failure self
  end.

(** *** Public names *)

(** [Some]: the public unit function. *)
Definition Some (inner_value : pyval) : Maybe :=
  Maybe_from_value inner_value.

(** [Nothing]: the public instance, [_Nothing()] with the default argument. *)
Definition Nothing : Maybe := _Nothing PNone.

(** [maybe]: the decorated function, called with [args] and [kwargs]. *)
Definition decorator (function : callable) (args : list pyval) (kwargs : keywords)
  : prog pyval :=
  r <- function args kwargs ;;
  Ret (PMaybe (Maybe_from_value r)).

Definition maybe (function : callable) : callable :=
  decorator function.

(** *** [Maybe.from_iterable] *)

(** Modelled from the spec: [iterable_kind] (in [returns._generated.iterable])
    is not among the sources.  Given a finite sequence of containers it
    produces one container wrapping the sequence of payloads, in input
    order, and goes to the absence variant at the first input that is
    absent; the empty sequence gives a present empty sequence.  The sequence
    of payloads is a tuple, as in the docstring of [from_iterable]. *)
Fixpoint collect_payloads (acc : list pyval) (sequence : list Maybe) : Maybe :=
  match sequence with
  | [] => _Some (PTuple acc)
  | NothingObj :: _ => _Nothing PNone
  | SomeObj v :: rest => collect_payloads (acc ++ [v]) rest
  end.

Definition iterable_kind (cls : pyclass) (sequence : list Maybe) : Maybe :=
  collect_payloads [] sequence.

(** Modelled from the spec: [dekind] (in [returns.primitives.hkt]) is not
    among the sources; it only changes the static type of its argument. *)
Definition dekind (kind : Maybe) : Maybe := kind.

Definition Maybe_from_iterable (inner_value : list Maybe) : Maybe :=
  dekind (iterable_kind cls_Maybe inner_value).

(** ** Vocabulary of the properties *)

(** The invariant of the data model: a [_Some] never holds [None]. *)
Definition well_formed (m : Maybe) : bool :=
  match m with
  | SomeObj PNone => false
  | _ => true
  end.

Definition is_Some (m : Maybe) : bool := isinstance m success_type.
Definition is_Nothing (m : Maybe) : bool := isinstance m failure_type.

(** Whether an object is an instance of the present variant. *)
Definition is_Some_object (c : pyval) : bool :=
  match c with
  | PMaybe m => is_Some m
  | _ => false
  end.

(** The calls a client can make on the module, with the callables given as
    host objects: what such a callable raises is an answer of the host, not
    an exception of the module. *)
Inductive api_call : Type :=
| call_map (self : Maybe) (function : pyval)
| call_apply (self : Maybe) (container : pyval)
| call_bind (self : Maybe) (function : pyval)
| call_value_or (self : Maybe) (default_value : pyval)
| call_or_else_call (self : Maybe) (function : pyval)
| call_unwrap (self : Maybe)
| call_failure (self : Maybe)
| call_from_value (inner_value : pyval)
| call_Some (inner_value : pyval)
| call_maybe (function : pyval) (args : list pyval) (kwargs : keywords).

Definition as_object (p : prog Maybe) : prog pyval :=
  m <- p ;; Ret (PMaybe m).

Definition perform (c : api_call) : prog pyval :=
  match c with
  | call_map self function => as_object (Maybe_map self (py_call function))
  | call_apply self container => Maybe_apply self container
  | call_bind self function => Maybe_bind self (py_call function)
  | call_value_or self default_value => Maybe_value_or self default_value
  | call_or_else_call self function => Maybe_or_else_call self (py_call function)
  | call_unwrap self => Maybe_unwrap self
  | call_failure self => Maybe_failure self
  | call_from_value inner_value => Ret (PMaybe (Maybe_from_value inner_value))
  | call_Some inner_value => Ret (PMaybe (Some inner_value))
  | call_maybe function args kwargs => maybe (py_call function) args kwargs
  end.

(** The last element of a trace, if any. *)
Definition last_answer (tr : list event) : option (outcome pyval) :=
  match rev tr with
  | [] => None
  | ev :: _ => Datatypes.Some (ev_answer ev)
  end.

(** *** Method calls on any object, and chains of them *)

(** What the host raises for a method looked up on an object that has none:
    of the values of [pyval] only the containers have [map], [bind],
    [apply] and [value_or]. *)
Definition no_attribute : exn := PyException "AttributeError" [].

(** [o.map(function)]. *)
Definition method_map (o : pyval) (function : callable) : prog pyval :=
  match o with
  | PMaybe m => as_object (Maybe_map m function)
  | _ => Raise no_attribute
  end.

(** [o.bind(function)]. *)
Definition method_bind (o : pyval) (function : callable) : prog pyval :=
  match o with
  | PMaybe m => Maybe_bind m function
  | _ => Raise no_attribute
  end.

(** [o.apply(container)]. *)
Definition method_apply (o : pyval) (container : pyval) : prog pyval :=
  match o with
  | PMaybe m => Maybe_apply m container
  | _ => Raise no_attribute
  end.

(** [o.value_or(default_value)]. *)
Definition method_value_or (o : pyval) (default_value : pyval) : prog pyval :=
  match o with
  | PMaybe m => Maybe_value_or m default_value
  | _ => Raise no_attribute
  end.

(** One link of a chain [x.map(f).bind(g).apply(c)...]. *)
Inductive step : Type :=
| then_map (function : callable)
| then_bind (function : callable)
| then_apply (container : pyval).

Definition method_step (o : pyval) (st : step) : prog pyval :=
  match st with
  | then_map function => method_map o function
  | then_bind function => method_bind o function
  | then_apply container => method_apply o container
  end.

(** The chain of the method calls [steps], from left to right, on [o]. *)
Fixpoint chain (o : pyval) (steps : list step) : prog pyval :=
  match steps with
  | [] => Ret o
  | st :: rest => r <- method_step o st ;; chain r rest
  end.

(** Two computations that no host can tell apart: the same outcome, the
    same final state and the same calls, from every state of every host. *)
Definition same_runs {A : Type} (p q : prog A) : Prop :=
  forall (State : Type)
         (host : pyval -> list pyval -> keywords -> State -> outcome pyval * State)
         (s : State),
    run host p s = run host q s.

(** * Properties *)

(** ** Computations and runs *)

Lemma pbind_Ret_l {A B : Type} (a : A) (f : A -> prog B) :
  pbind (Ret a) f = f a.
Proof. reflexivity. Qed.

Lemma pbind_Raise {A B : Type} (e : exn) (f : A -> prog B) :
  pbind (Raise e) f = Raise e.
Proof. reflexivity. Qed.

(** Running [p] and then [f]: the run of [p], and if it returned, the run
    of [f] from the state it left, with the two traces in sequence. *)
Lemma run_pbind {State : Type}
      (host : pyval -> list pyval -> keywords -> State -> outcome pyval * State)
      {A B : Type} (p : prog A) (f : A -> prog B) (s : State) :
  run host (pbind p f) s =
  match run host p s with
  | (Returned a, s1, tr1) =>
      let '(o, s2, tr2) := run host (f a) s1 in (o, s2, tr1 ++ tr2)
  | (Raised e, s1, tr1) => (Raised e, s1, tr1)
  end.
Proof.
  revert s. induction p as [a | e | c a kw k IH]; intro s; simpl.
  - destruct (run host (f a) s) as [[o s2] tr2]. reflexivity.
  - reflexivity.
  - destruct (host c a kw s) as [[v | e] s1]; [ | reflexivity ].
    rewrite IH.
    destruct (run host (k v) s1) as [[[x | e] s2] tr]; [ | reflexivity ].
    destruct (run host (f x) s2) as [[o s3] tr2]. reflexivity.
Qed.

(** A run that returned ran to the end; one that raised stopped at a
    [Raise] of the computation or at the last answer of the host. *)
Lemma run_Raised_origin {State : Type}
      (host : pyval -> list pyval -> keywords -> State -> outcome pyval * State)
      {A : Type} (p : prog A) (s s' : State) (e : exn) (tr : list event) :
  run host p s = (Raised e, s', tr) ->
  raises_itself p e \/ last_answer tr = Datatypes.Some (Raised e).
Proof.
  revert s s' tr. induction p as [a | e0 | c a kw k IH]; intros s s' tr; simpl.
  - discriminate.
  - intros [= -> _ _]. left. constructor.
  - destruct (host c a kw s) as [[v | e1] s1].
    + destruct (run host (k v) s1) as [[o s2] tr2] eqn:Hk.
      intros [= -> _ <-].
      destruct (IH v _ _ _ Hk) as [Hself | Hlast].
      * left. econstructor. exact Hself.
      * right. unfold last_answer in *. simpl.
        destruct (rev tr2) as [ | ev l]; [ discriminate | exact Hlast ].
    + intros [= <- _ <-]. right. reflexivity.
Qed.

(** ** Values and their equality *)

Lemma is_None_true (v : pyval) : is_None v = true <-> v = PNone.
Proof. destruct v; simpl; split; congruence. Qed.

Lemma is_None_false (v : pyval) : is_None v = false <-> v <> PNone.
Proof. destruct v; simpl; split; congruence. Qed.

Lemma from_value_present (v : pyval) :
  v <> PNone -> Maybe_from_value v = SomeObj v.
Proof.
  intro Hv. unfold Maybe_from_value.
  apply is_None_false in Hv. rewrite Hv. reflexivity.
Qed.

Lemma from_value_absent : Maybe_from_value PNone = NothingObj.
Proof. reflexivity. Qed.

Lemma from_value_well_formed (v : pyval) :
  well_formed (Maybe_from_value v) = true.
Proof. destruct v; reflexivity. Qed.

(** Every well-formed container is [Some v] for some [v]: the public
    constructor reaches all of them, and nothing else. *)
Lemma well_formed_iff_public (m : Maybe) :
  well_formed m = true <-> exists v, m = Some v.
Proof.
  split.
  - destruct m as [v | ].
    + intro H. exists v. unfold Some. rewrite from_value_present; [ reflexivity | ].
      intros ->. discriminate.
    + intros _. exists PNone. reflexivity.
  - intros [v ->]. apply from_value_well_formed.
Qed.

Lemma py_eq_iff_eq :
  (forall a b : pyval, py_eq a b = true <-> a = b).
Proof.
  intro a.
  induction a using pyval_induction
    with (Q := fun m => forall n, BaseContainer_eq m n = true <-> m = n).
  - intros []; simpl; split; congruence.
  - intros []; simpl; split; try congruence.
    + intro H. apply Z.eqb_eq in H. congruence.
    + intros [= ->]. apply Z.eqb_refl.
  - intros []; simpl; split; try congruence.
    + intro H. apply String.eqb_eq in H. congruence.
    + intros [= ->]. apply String.eqb_refl.
  - intros [ | | | ys | | ]; simpl; try (split; congruence).
    revert ys. induction H as [ | x xs Hx _ IH]; intros [ | y ys];
      try (split; congruence).
    split.
    + intro E. apply andb_true_iff in E as [E1 E2].
      apply Hx in E1. apply IH in E2. congruence.
    + intros [= -> ->]. apply andb_true_iff. split.
      * apply Hx. reflexivity.
      * apply IH. reflexivity.
  - intros []; simpl; split; try congruence.
    + intro H. apply String.eqb_eq in H. congruence.
    + intros [= ->]. apply String.eqb_refl.
  - intros [ | | | | | n]; simpl; try (split; congruence).
    rewrite IHa. split; congruence.
  - intros [w | ]; simpl; [ | split; congruence ].
    rewrite IHa. split; congruence.
  - intros []; simpl; split; congruence.
Qed.

Lemma BaseContainer_eq_iff_eq (m n : Maybe) :
  BaseContainer_eq m n = true <-> m = n.
Proof.
  destruct m as [v | ], n as [w | ]; simpl; try (split; congruence).
  rewrite py_eq_iff_eq. split; congruence.
Qed.

Lemma BaseContainer_eq_refl (m : Maybe) : BaseContainer_eq m m = true.
Proof. apply BaseContainer_eq_iff_eq. reflexivity. Qed.

Lemma returns_equal_Ret (m : Maybe) : returns_equal (Ret m) m.
Proof. exists m. split; [ reflexivity | apply BaseContainer_eq_refl ]. Qed.

Lemma py_eq_refl (v : pyval) : py_eq v v = true.
Proof. apply py_eq_iff_eq. reflexivity. Qed.

(** ** What a computation raises by itself *)

Lemma raises_itself_Ret {A : Type} (a : A) (e : exn) :
  ~ raises_itself (Ret a) e.
Proof. intro H. inversion H. Qed.

Lemma raises_itself_Raise {A : Type} (e0 e : exn) :
  raises_itself (@Raise A e0) e -> e = e0.
Proof. intro H. inversion H. reflexivity. Qed.

Lemma raises_itself_Call {A : Type} (c : pyval) (a : list pyval)
      (kw : keywords) (k : pyval -> prog A) (e : exn) :
  raises_itself (Call c a kw k) e -> exists r, raises_itself (k r) e.
Proof. intro H. inversion H; subst. eexists. eassumption. Qed.

(** ** Construction *)

(** C1. Normalization at construction: [Maybe.from_value] of a value that is
    not [None] is the [_Some] holding it, and of [None] is [Nothing]; [Some]
    is [from_value], so [Some(None) == Nothing], and a container built by
    [Some] never holds [None]. *)
Theorem C1_from_value_normalizes :
  (forall v : pyval, v <> PNone -> Maybe_from_value v = _Some v) /\
  Maybe_from_value PNone = Nothing /\
  (forall v : pyval, Some v = Maybe_from_value v) /\
  BaseContainer_eq (Some PNone) Nothing = true /\
  (forall v w : pyval, Some v = _Some w -> w <> PNone).
Proof.
  split; [ | split; [ | split; [ | split ] ] ].
  - intros v Hv. apply from_value_present. exact Hv.
  - reflexivity.
  - reflexivity.
  - reflexivity.
  - intros v w H ->.
    pose proof (from_value_well_formed v) as Hwf.
    unfold Some in H. rewrite H in Hwf. discriminate.
Qed.

Lemma C1_from_value_normalizes_witness :
  Maybe_from_value (PInt 1) = _Some (PInt 1).
Proof.
  apply (proj1 C1_from_value_normalizes). discriminate.
Defined.

(** ** [map] *)

(** On [_Some] the run of [map] is the run of the function on the payload,
    with the value it returned passed through [from_value]. *)
Lemma run_Some_map {State : Type}
      (host : pyval -> list pyval -> keywords -> State -> outcome pyval * State)
      (v : pyval) (function : callable) (s : State) :
  run host (Maybe_map (_Some v) function) s =
  match run host (function [v] []) s with
  | (Returned r, s1, tr) => (Returned (Maybe_from_value r), s1, tr)
  | (Raised e, s1, tr) => (Raised e, s1, tr)
  end.
Proof.
  unfold Maybe_map, _Some, _Some_map. simpl _inner_value.
  rewrite run_pbind.
  destruct (run host (function [v] []) s) as [[[r | e] s1] tr]; simpl.
  - rewrite app_nil_r. reflexivity.
  - reflexivity.
Qed.

(** C2. [map] on both variants: for a value [v] that is not [None] and any
    function, [Some(v).map(f)] is [Maybe.from_value(f(v))], so that it is
    [Nothing] when [f(v)] is [None]; and [Nothing.map(f)] returns [Nothing]
    and does not invoke [f]: the state is untouched and no call is made. *)
Theorem C2_map_semantics (v : pyval) (function : callable) (Hv : v <> PNone) :
  Maybe_map (Some v) function =
    (r <- function [v] [] ;; Ret (Maybe_from_value r)) /\
  (forall (State : Type)
          (host : pyval -> list pyval -> keywords -> State -> outcome pyval * State)
          (s s1 : State) (tr : list event) (r : pyval),
      run host (function [v] []) s = (Returned r, s1, tr) ->
      run host (Maybe_map (Some v) function) s
      = (Returned (Maybe_from_value r), s1, tr) /\
      (r = PNone ->
       run host (Maybe_map (Some v) function) s = (Returned Nothing, s1, tr))) /\
  Maybe_map Nothing function = Ret Nothing /\
  (forall (State : Type)
          (host : pyval -> list pyval -> keywords -> State -> outcome pyval * State)
          (s : State),
      run host (Maybe_map Nothing function) s = (Returned Nothing, s, [])).
Proof.
  assert (HS : Some v = _Some v) by (apply from_value_present; exact Hv).
  split; [ | split; [ | split ] ].
  - rewrite HS. reflexivity.
  - intros State host s s1 tr r Hrun.
    rewrite HS, run_Some_map, Hrun.
    split; [ reflexivity | intros ->; reflexivity ].
  - reflexivity.
  - reflexivity.
Qed.

Lemma C2_map_semantics_witness :
  Maybe_map (Some (PStr "a")) (pure1 (fun _ => PNone)) = Ret Nothing.
Proof.
  apply (proj1 (C2_map_semantics (PStr "a") (pure1 (fun _ => PNone))
                  ltac:(discriminate))).
Defined.

(** ** [unwrap] and [failure] *)

(** C3. [unwrap()] on [Nothing] raises [UnwrapFailedError] carrying that
    container and on [_Some(v)] returns [v]; [failure()] on [_Some] raises
    [UnwrapFailedError] carrying that container and on [Nothing] returns
    [None].  No call on the module raises anything else by itself: an
    exception of a run is one of these two, or the last answer of the
    host. *)
Theorem C3_unwrap_failure_contract :
  Maybe_unwrap Nothing = Raise (UnwrapFailedError Nothing) /\
  (forall v : pyval, Maybe_unwrap (_Some v) = Ret v) /\
  (forall v : pyval,
      Maybe_failure (_Some v) = Raise (UnwrapFailedError (_Some v))) /\
  Maybe_failure Nothing = Ret PNone /\
  (forall (c : api_call) (e : exn),
      raises_itself (perform c) e ->
      exists m : Maybe,
        e = UnwrapFailedError m /\
        ((c = call_unwrap m /\ is_Nothing m = true) \/
         (c = call_failure m /\ is_Some m = true))) /\
  (forall (State : Type)
          (host : pyval -> list pyval -> keywords -> State -> outcome pyval * State)
          (c : api_call) (s s1 : State) (e : exn) (tr : list event),
      run host (perform c) s = (Raised e, s1, tr) ->
      (exists m : Maybe, e = UnwrapFailedError m /\ tr = []) \/
      last_answer tr = Datatypes.Some (Raised e)).
Proof.
  assert (Hown : forall (c : api_call) (e : exn),
      raises_itself (perform c) e ->
      exists m : Maybe,
        e = UnwrapFailedError m /\
        ((c = call_unwrap m /\ is_Nothing m = true) \/
         (c = call_failure m /\ is_Some m = true))).
  { intros c e H.
    destruct c as [self f | self c | self f | self d | self f | self | self
                  | v | v | f args kw]; simpl in H.
    - destruct self; simpl in H.
      + apply raises_itself_Call in H as [r H]. simpl in H.
        apply raises_itself_Ret in H. contradiction.
      + apply raises_itself_Ret in H. contradiction.
    - destruct self; simpl in H.
      + unfold _Some_apply in H.
        destruct c as [ | | | | | [g | ]]; simpl in H;
          try (apply raises_itself_Ret in H; contradiction).
        apply raises_itself_Call in H as [r H]. simpl in H.
        apply raises_itself_Ret in H. contradiction.
      + apply raises_itself_Ret in H. contradiction.
    - destruct self; simpl in H.
      + apply raises_itself_Call in H as [r H].
        apply raises_itself_Ret in H. contradiction.
      + apply raises_itself_Ret in H. contradiction.
    - destruct self; simpl in H; apply raises_itself_Ret in H; contradiction.
    - destruct self; simpl in H.
      + apply raises_itself_Ret in H. contradiction.
      + apply raises_itself_Call in H as [r H].
        apply raises_itself_Ret in H. contradiction.
    - destruct self; simpl in H.
      + apply raises_itself_Ret in H. contradiction.
      + apply raises_itself_Raise in H. exists NothingObj.
        split; [ exact H | left; split; reflexivity ].
    - destruct self as [v | ]; simpl in H.
      + apply raises_itself_Raise in H. exists (SomeObj v).
        split; [ exact H | right; split; reflexivity ].
      + apply raises_itself_Ret in H. contradiction.
    - apply raises_itself_Ret in H. contradiction.
    - apply raises_itself_Ret in H. contradiction.
    - apply raises_itself_Call in H as [r H]. simpl in H.
      apply raises_itself_Ret in H. contradiction. }
  repeat split; try reflexivity.
  - exact Hown.
  - intros State host c s s1 e tr Hrun.
    destruct (run_Raised_origin host _ _ _ _ _ Hrun) as [Hself | Hlast];
      [ left | right; exact Hlast ].
    destruct (Hown c e Hself) as [m [-> [[-> Hm] | [-> Hm]]]];
      exists m; split; try reflexivity.
    + destruct m; [ discriminate | ]. simpl in Hrun. congruence.
    + destruct m; [ | discriminate ]. simpl in Hrun. congruence.
Qed.

Lemma C3_unwrap_failure_contract_witness :
  exists m : Maybe,
    UnwrapFailedError (_Some (PInt 1)) = UnwrapFailedError m /\
    ((call_failure (_Some (PInt 1)) = call_unwrap m /\ is_Nothing m = true) \/
     (call_failure (_Some (PInt 1)) = call_failure m /\ is_Some m = true)).
Proof.
  apply (proj1 (proj2 (proj2 (proj2 (proj2 C3_unwrap_failure_contract))))).
  simpl. constructor.
Defined.

(** ** [from_iterable] *)

Lemma collect_payloads_all_Some (sequence : list Maybe) :
  forall acc : list pyval,
    forallb is_Some sequence = true ->
    collect_payloads acc sequence
    = _Some (PTuple (acc ++ List.map _inner_value sequence)).
Proof.
  induction sequence as [ | [v | ] rest IH]; intros acc Hall; simpl in *.
  - rewrite app_nil_r. reflexivity.
  - rewrite IH by exact Hall. rewrite <- app_assoc. reflexivity.
  - discriminate.
Qed.

Lemma collect_payloads_some_Nothing (sequence : list Maybe) :
  forall acc : list pyval,
    existsb is_Nothing sequence = true ->
    collect_payloads acc sequence = Nothing.
Proof.
  induction sequence as [ | [v | ] rest IH]; intros acc Hex; simpl in *.
  - discriminate.
  - apply IH. exact Hex.
  - reflexivity.
Qed.

(** C4. [from_iterable] of a finite sequence of containers: when all are
    [_Some], the [_Some] of their payloads in input order; when one is
    [Nothing], at whatever position, [Nothing]; of the empty sequence, the
    [_Some] of the empty sequence. *)
Theorem C4_from_iterable :
  (forall sequence : list Maybe,
      forallb is_Some sequence = true ->
      Maybe_from_iterable sequence
      = _Some (PTuple (List.map _inner_value sequence))) /\
  (forall sequence : list Maybe,
      existsb is_Nothing sequence = true ->
      Maybe_from_iterable sequence = Nothing) /\
  (forall before after : list Maybe,
      Maybe_from_iterable (before ++ Nothing :: after) = Nothing) /\
  Maybe_from_iterable [] = _Some (PTuple []) /\
  BaseContainer_eq (Maybe_from_iterable [Some (PInt 1); Some (PInt 2)])
                   (Some (PTuple [PInt 1; PInt 2])) = true /\
  BaseContainer_eq (Maybe_from_iterable [Some (PInt 1); Nothing]) Nothing = true /\
  BaseContainer_eq (Maybe_from_iterable [Nothing; Some (PInt 1)]) Nothing = true.
Proof.
  split; [ | split; [ | split; [ | repeat split ] ] ].
  - intros sequence Hall. unfold Maybe_from_iterable, dekind, iterable_kind.
    rewrite collect_payloads_all_Some by exact Hall. reflexivity.
  - intros sequence Hex. unfold Maybe_from_iterable, dekind, iterable_kind.
    apply collect_payloads_some_Nothing. exact Hex.
  - intros before after. unfold Maybe_from_iterable, dekind, iterable_kind.
    apply collect_payloads_some_Nothing.
    rewrite existsb_app. simpl. apply orb_true_r.
Qed.

Lemma C4_from_iterable_witness :
  Maybe_from_iterable [_Some (PStr "a"); _Some (PInt 2); _Some (PInt 3)]
  = _Some (PTuple [PStr "a"; PInt 2; PInt 3]).
Proof.
  apply (proj1 C4_from_iterable [_Some (PStr "a"); _Some (PInt 2); _Some (PInt 3)]).
  reflexivity.
Defined.

(** ** Functor laws *)

(** C5. Functor identity: for every container [x] built through the public
    interface ([Nothing], or a [_Some] that does not hold [None]),
    [x.map(identity) == x]. *)
Theorem C5_functor_identity (x : Maybe) (Hx : well_formed x = true) :
  Maybe_map x identity = Ret x /\ returns_equal (Maybe_map x identity) x.
Proof.
  assert (H : Maybe_map x identity = Ret x).
  { destruct x as [v | ]; [ | reflexivity ].
    unfold Maybe_map, _Some_map, identity, lambda1. simpl.
    rewrite from_value_present; [ reflexivity | ].
    intros ->. discriminate. }
  split; [ exact H | ].
  rewrite H. apply returns_equal_Ret.
Qed.

Lemma C5_functor_identity_witness :
  returns_equal (Maybe_map (Some (PInt 5)) identity) (Some (PInt 5)).
Proof.
  apply (proj2 (C5_functor_identity (Some (PInt 5)) eq_refl)).
Defined.

(** The invariant is needed: a [_Some] made to hold [None] by the private
    constructor is turned into [Nothing] by [map]. *)
Lemma functor_identity_private_Some_None :
  Maybe_map (_Some PNone) identity = Ret Nothing /\
  BaseContainer_eq Nothing (_Some PNone) = false.
Proof. split; reflexivity. Qed.

(** Mapping a pure function over a container returns, whatever the
    container. *)
Lemma map_pure1 (x : Maybe) (f : pyval -> pyval) :
  Maybe_map x (pure1 f)
  = Ret (match x with
         | SomeObj v => Maybe_from_value (f v)
         | NothingObj => x
         end).
Proof. destruct x; reflexivity. Qed.

(** The law of composition needs [f] only not to produce [None]. *)
Lemma map_map_pure1 (x : Maybe) (f g : pyval -> pyval) :
  (forall a : pyval, f a <> PNone) ->
  (y <- Maybe_map x (pure1 f) ;; Maybe_map y (pure1 g))
  = Maybe_map x (compose (pure1 g) (pure1 f)).
Proof.
  intro Hf. rewrite map_pure1. simpl.
  destruct x as [v | ]; [ | reflexivity ].
  rewrite (from_value_present (f v)) by apply Hf.
  reflexivity.
Qed.

(** C6. Functor composition: for every container [x] and pure functions [f]
    and [g] that never produce [None],
    [x.map(f).map(g) == x.map(compose(g, f))]. *)
Theorem C6_functor_composition (x : Maybe) (f g : pyval -> pyval)
        (Hf : forall a : pyval, f a <> PNone)
        (Hg : forall a : pyval, g a <> PNone) :
  equal_results (y <- Maybe_map x (pure1 f) ;; Maybe_map y (pure1 g))
                (Maybe_map x (compose (pure1 g) (pure1 f))).
Proof.
  rewrite (map_map_pure1 x f g Hf).
  destruct x as [v | ].
  - exists (_Some (g (f v))), (_Some (g (f v))).
    assert (E : Maybe_map (SomeObj v) (compose (pure1 g) (pure1 f))
                = Ret (_Some (g (f v)))).
    { unfold Maybe_map, _Some_map, compose, pure1, lambda1. simpl.
      rewrite from_value_present by apply Hg. reflexivity. }
    rewrite E. repeat split. apply BaseContainer_eq_refl.
  - exists Nothing, Nothing. repeat split.
Qed.

Lemma C6_functor_composition_witness :
  equal_results
    (y <- Maybe_map (Some (PInt 2)) (pure1 (fun a => PTuple [a])) ;;
     Maybe_map y (pure1 (fun a => PTuple [a; a])))
    (Maybe_map (Some (PInt 2))
               (compose (pure1 (fun a => PTuple [a; a]))
                        (pure1 (fun a => PTuple [a])))).
Proof.
  apply (C6_functor_composition (Some (PInt 2))
           (fun a => PTuple [a]) (fun a => PTuple [a; a])).
  - intros a. discriminate.
  - intros a. discriminate.
Defined.

(** Outside the precondition the two sides differ: with an [f] that gives
    [None], mapping twice stops at [Nothing], mapping the composition does
    not. *)
Lemma functor_composition_f_None :
  (y <- Maybe_map (Some (PInt 1)) (pure1 (fun _ => PNone)) ;;
   Maybe_map y (pure1 (fun _ => PInt 0))) = Ret Nothing /\
  Maybe_map (Some (PInt 1))
            (compose (pure1 (fun _ => PInt 0)) (pure1 (fun _ => PNone)))
  = Ret (_Some (PInt 0)).
Proof. split; reflexivity. Qed.

(** ** [bind] *)

(** C7. Identities of [bind]: for a value [v] that is not [None] and any
    function, [Some(v).bind(f)] is [f(v)] itself, with nothing done to its
    result; for every container [x], [x.bind(lambda a: Some(a)) == x];
    and [Nothing.bind(f)] is [Nothing], without a call of [f]. *)
Theorem C7_bind_identities :
  (forall (v : pyval) (function : callable),
      v <> PNone -> Maybe_bind (Some v) function = function [v] []) /\
  (forall x : Maybe,
      well_formed x = true ->
      returns_equal_object
        (Maybe_bind x (lambda1 (fun a => Ret (PMaybe (Some a)))))
        (PMaybe x)) /\
  (forall x : Maybe,
      returns_equal_object
        (Maybe_bind x (lambda1 (fun a => Ret (PMaybe (_Some a)))))
        (PMaybe x)) /\
  (forall function : callable,
      Maybe_bind Nothing function = Ret (PMaybe Nothing)) /\
  (forall (function : callable) (State : Type)
          (host : pyval -> list pyval -> keywords -> State -> outcome pyval * State)
          (s : State),
      run host (Maybe_bind Nothing function) s
      = (Returned (PMaybe Nothing), s, [])).
Proof.
  split; [ | split; [ | split; [ | split ] ] ].
  - intros v function Hv.
    unfold Some. rewrite from_value_present by exact Hv. reflexivity.
  - intros [v | ] Hx.
    + exists (PMaybe (SomeObj v)). split; [ | apply py_eq_refl ].
      simpl. unfold _Some_bind, lambda1, Some. simpl.
      rewrite from_value_present; [ reflexivity | ].
      intros ->. discriminate.
    + exists (PMaybe NothingObj). split; reflexivity.
  - intros [v | ].
    + exists (PMaybe (SomeObj v)). split; [ reflexivity | apply py_eq_refl ].
    + exists (PMaybe NothingObj). split; reflexivity.
  - reflexivity.
  - reflexivity.
Qed.

Lemma C7_bind_identities_witness :
  Maybe_bind (Some (PStr "a")) (py_call (PFun "bindable"))
  = py_call (PFun "bindable") [PStr "a"] [].
Proof.
  apply (proj1 C7_bind_identities). discriminate.
Defined.

(** ** [or_else_call] *)

(** C8. [or_else_call] is lazy: on [Some(v)], for a value [v] that is not
    [None], it returns [v] and the function is not invoked, so that one that
    would raise raises nothing; on [Nothing] it invokes the function once,
    without arguments, and its result, value or exception, is the result. *)
Theorem C8_or_else_call_lazy (v : pyval) (Hv : v <> PNone) :
  (forall function : callable,
      Maybe_or_else_call (Some v) function = Ret v) /\
  (forall e : exn,
      Maybe_or_else_call (Some v) (lambda0 (Raise e)) = Ret v) /\
  (forall (function : callable) (State : Type)
          (host : pyval -> list pyval -> keywords -> State -> outcome pyval * State)
          (s : State),
      run host (Maybe_or_else_call (Some v) function) s = (Returned v, s, [])) /\
  (forall function : callable,
      Maybe_or_else_call Nothing function = function [] []) /\
  (forall (f : pyval) (State : Type)
          (host : pyval -> list pyval -> keywords -> State -> outcome pyval * State)
          (s : State),
      run host (Maybe_or_else_call Nothing (py_call f)) s
      = (fst (host f [] [] s), snd (host f [] [] s),
         [mkEvent f [] [] (fst (host f [] [] s))])) /\
  (forall e : exn,
      Maybe_or_else_call Nothing (lambda0 (Raise e)) = Raise e).
Proof.
  assert (HS : Some v = SomeObj v) by (apply from_value_present; exact Hv).
  split; [ | split; [ | split; [ | split; [ | split ] ] ] ].
  - intro function. rewrite HS. reflexivity.
  - intro e. rewrite HS. reflexivity.
  - intros function State host s. rewrite HS. reflexivity.
  - reflexivity.
  - intros f State host s. simpl.
    destruct (host f [] [] s) as [[r | e] s1]; reflexivity.
  - reflexivity.
Qed.

Lemma C8_or_else_call_lazy_witness :
  Maybe_or_else_call (Some (PInt 10))
                     (lambda0 (Raise (PyException "ZeroDivisionError" [])))
  = Ret (PInt 10).
Proof.
  apply (proj1 (proj2 (C8_or_else_call_lazy (PInt 10) ltac:(discriminate)))).
Defined.

(** ** The decorator *)

(** C9. The function decorated by [maybe], called with any arguments, gives
    [Maybe.from_value] of what the function returns for them, [Nothing] for
    [None] and the [_Some] of the result otherwise; an exception of the
    function ends the call with that exception. *)
Theorem C9_maybe_decorator (function : callable) (args : list pyval)
        (kwargs : keywords) :
  maybe function args kwargs
  = (r <- function args kwargs ;; Ret (PMaybe (Maybe_from_value r))) /\
  (forall (State : Type)
          (host : pyval -> list pyval -> keywords -> State -> outcome pyval * State)
          (s : State),
      run host (maybe function args kwargs) s =
      match run host (function args kwargs) s with
      | (Returned r, s1, tr) => (Returned (PMaybe (Maybe_from_value r)), s1, tr)
      | (Raised e, s1, tr) => (Raised e, s1, tr)
      end) /\
  (forall (State : Type)
          (host : pyval -> list pyval -> keywords -> State -> outcome pyval * State)
          (s s1 : State) (tr : list event),
      (run host (function args kwargs) s = (Returned PNone, s1, tr) ->
       run host (maybe function args kwargs) s
       = (Returned (PMaybe Nothing), s1, tr)) /\
      (forall r : pyval,
          r <> PNone ->
          run host (function args kwargs) s = (Returned r, s1, tr) ->
          run host (maybe function args kwargs) s
          = (Returned (PMaybe (_Some r)), s1, tr)) /\
      (forall e : exn,
          run host (function args kwargs) s = (Raised e, s1, tr) ->
          run host (maybe function args kwargs) s = (Raised e, s1, tr))).
Proof.
  assert (Hrun : forall (State : Type)
          (host : pyval -> list pyval -> keywords -> State -> outcome pyval * State)
          (s : State),
      run host (maybe function args kwargs) s =
      match run host (function args kwargs) s with
      | (Returned r, s1, tr) => (Returned (PMaybe (Maybe_from_value r)), s1, tr)
      | (Raised e, s1, tr) => (Raised e, s1, tr)
      end).
  { intros State host s. unfold maybe, decorator. rewrite run_pbind.
    destruct (run host (function args kwargs) s) as [[[r | e] s1] tr]; simpl.
    - rewrite app_nil_r. reflexivity.
    - reflexivity. }
  split; [ reflexivity | split; [ exact Hrun | ] ].
  intros State host s s1 tr. split; [ | split ].
  - intro H. rewrite Hrun, H. reflexivity.
  - intros r Hr H. rewrite Hrun, H, from_value_present by exact Hr. reflexivity.
  - intros e H. rewrite Hrun, H. reflexivity.
Qed.

(** The host of the witness: [might_be_none] gives [None] for [0] and
    raises for anything that is not a number. *)
Lemma C9_maybe_decorator_witness :
  run (fun (f : pyval) (a : list pyval) (kw : keywords) (s : unit) =>
         match a with
         | [PInt 0] => (Returned PNone, s)
         | [PInt z] => (Returned (PInt z), s)
         | _ => (Raised (PyException "TypeError" []), s)
         end)
      (maybe (py_call (PFun "might_be_none")) [PInt 0] []) tt
  = (Returned (PMaybe Nothing), tt,
     [mkEvent (PFun "might_be_none") [PInt 0] [] (Returned PNone)]).
Proof.
  apply (proj1 (proj2 (proj2 (C9_maybe_decorator
                                (py_call (PFun "might_be_none")) [PInt 0] []))
                 unit _ tt tt _)).
  reflexivity.
Defined.

(** ** [apply] *)

(** C10. [apply] on a [_Some] returns an argument that is not an instance of
    [_Some], [Nothing] included, as it is, with no call and no exception;
    an argument that is a [_Some] is unwrapped and its payload given to
    [map] on the container. *)
Theorem C10_apply_passes_through (v : pyval) (c : pyval)
        (Hc : is_Some_object c = false) :
  Maybe_apply (_Some v) c = Ret c /\
  (forall (State : Type)
          (host : pyval -> list pyval -> keywords -> State -> outcome pyval * State)
          (s : State),
      run host (Maybe_apply (_Some v) c) s = (Returned c, s, [])) /\
  Maybe_apply (_Some v) (PMaybe Nothing) = Ret (PMaybe Nothing) /\
  (forall g : pyval,
      Maybe_apply (_Some v) (PMaybe (_Some g))
      = as_object (Maybe_map (_Some v) (py_call g))).
Proof.
  assert (H : Maybe_apply (_Some v) c = Ret c).
  { destruct c as [ | | | | | [g | ]]; try reflexivity. discriminate. }
  split; [ exact H | split; [ | split ] ].
  - intros State host s. rewrite H. reflexivity.
  - reflexivity.
  - reflexivity.
Qed.

Lemma C10_apply_passes_through_witness :
  Maybe_apply (_Some (PStr "a")) (PInt 5) = Ret (PInt 5).
Proof.
  apply (proj1 (C10_apply_passes_through (PStr "a") (PInt 5) eq_refl)).
Defined.

(** * Further properties of the module *)

(** ** Chains of [bind], [map] and [apply] *)

(** X1. [bind] is associative, for functions with any effects:
    [x.bind(f).bind(g)] is the computation
    [x.bind(lambda a: f(a).bind(g))]. *)
Theorem bind_associative (x : Maybe) (f g : callable) :
  (y <- Maybe_bind x f ;; method_bind y g)
  = Maybe_bind x (lambda1 (fun a => y <- f [a] [] ;; method_bind y g)).
Proof.
  destruct x as [v | ]; reflexivity.
Qed.

Lemma chain_Nothing (steps : list step) :
  chain (PMaybe Nothing) steps = Ret (PMaybe Nothing).
Proof.
  induction steps as [ | [f | f | c] rest IH]; simpl; try exact IH.
  reflexivity.
Qed.

Lemma run_chain_app {State : Type}
      (host : pyval -> list pyval -> keywords -> State -> outcome pyval * State)
      (before after : list step) :
  forall (o : pyval) (s : State),
    run host (chain o (before ++ after)) s =
    match run host (chain o before) s with
    | (Returned r, s1, tr1) =>
        let '(out, s2, tr2) := run host (chain r after) s1 in
        (out, s2, tr1 ++ tr2)
    | (Raised e, s1, tr1) => (Raised e, s1, tr1)
    end.
Proof.
  induction before as [ | st before IH]; intros o s.
  - simpl. destruct (run host (chain o after) s) as [[out s2] tr2]. reflexivity.
  - simpl app. simpl chain. rewrite !run_pbind.
    destruct (run host (method_step o st) s) as [[[r | e] s1] tr1];
      [ | reflexivity ].
    rewrite IH.
    destruct (run host (chain r before) s1) as [[[r' | e] s2] tr2];
      [ | reflexivity ].
    destruct (run host (chain r' after) s2) as [[out s3] tr3].
    rewrite app_assoc. reflexivity.
Qed.

(** X2. Absorption: once a chain of [map], [bind] and [apply] has reached
    [Nothing], whatever is chained after it changes nothing: the result is
    [Nothing], the state is the one reached and no further call is made. *)
Theorem Nothing_absorbs_chain {State : Type}
        (host : pyval -> list pyval -> keywords -> State -> outcome pyval * State)
        (o : pyval) (before after : list step) (s s1 : State)
        (tr : list event)
        (Hreached : run host (chain o before) s
                    = (Returned (PMaybe Nothing), s1, tr)) :
  run host (chain o (before ++ after)) s = (Returned (PMaybe Nothing), s1, tr).
Proof.
  rewrite run_chain_app, Hreached, chain_Nothing. simpl.
  rewrite app_nil_r. reflexivity.
Qed.

Lemma Nothing_absorbs_chain_witness :
  run (fun (f : pyval) (a : list pyval) (kw : keywords) (s : Z) =>
         (Returned PNone, s + 1))
      (chain (PMaybe (Some (PInt 1)))
             ([then_map (py_call (PFun "f"))]
              ++ [then_map (py_call (PFun "g"));
                  then_bind (py_call (PFun "h"));
                  then_apply (PMaybe (Some (PFun "k")))]))
      0
  = (Returned (PMaybe Nothing), 1,
     [mkEvent (PFun "f") [PInt 1] [] (Returned PNone)]).
Proof.
  apply (Nothing_absorbs_chain
           (fun (f : pyval) (a : list pyval) (kw : keywords) (s : Z) =>
              (Returned PNone, s + 1))
           (PMaybe (Some (PInt 1)))
           [then_map (py_call (PFun "f"))]
           [then_map (py_call (PFun "g"));
            then_bind (py_call (PFun "h"));
            then_apply (PMaybe (Some (PFun "k")))]
           0 1 [mkEvent (PFun "f") [PInt 1] [] (Returned PNone)]).
  reflexivity.
Defined.

(** X3. [map] is [bind] with the result normalised: no host can tell
    [x.map(f)] from [x.bind(lambda a: Maybe.from_value(f(a)))]. *)
Theorem map_as_bind (x : Maybe) (f : callable) :
  same_runs
    (as_object (Maybe_map x f))
    (Maybe_bind x
       (lambda1 (fun a => r <- f [a] [] ;; Ret (PMaybe (Maybe_from_value r))))).
Proof.
  intros State host s.
  destruct x as [v | ]; [ | reflexivity ].
  unfold as_object, Maybe_map, _Some_map, Maybe_bind, _Some_bind, lambda1.
  simpl _inner_value. rewrite !run_pbind.
  destruct (run host (f [v] []) s) as [[[r | e] s1] tr]; simpl;
    [ rewrite app_nil_r | ]; reflexivity.
Qed.

(** ** [apply] on two containers *)

(** X4. [self.apply(c)] for containers [self] and [c]: when one of them is
    [Nothing] the result is [Nothing] and nothing is called; when both are
    [_Some] the payload of [c] is called once on the payload of [self], its
    result normalised by [from_value], its exception let through. *)
Theorem apply_on_containers {State : Type}
        (host : pyval -> list pyval -> keywords -> State -> outcome pyval * State)
        (s : State) :
  (forall self c : Maybe,
      is_Nothing self || is_Nothing c = true ->
      run host (Maybe_apply self (PMaybe c)) s
      = (Returned (PMaybe Nothing), s, [])) /\
  (forall v g : pyval,
      run host (Maybe_apply (_Some v) (PMaybe (_Some g))) s =
      match host g [v] [] s with
      | (Returned r, s1) =>
          (Returned (PMaybe (Maybe_from_value r)), s1,
           [mkEvent g [v] [] (Returned r)])
      | (Raised e, s1) => (Raised e, s1, [mkEvent g [v] [] (Raised e)])
      end).
Proof.
  split.
  - intros [v | ] [g | ] H; try reflexivity. discriminate.
  - intros v g. simpl.
    destruct (host g [v] [] s) as [[r | e] s1]; reflexivity.
Qed.

Lemma apply_on_containers_witness :
  run (fun (f : pyval) (a : list pyval) (kw : keywords) (s : unit) =>
         (Raised (PyException "ValueError" []), s))
      (Maybe_apply (Some (PStr "a")) (PMaybe Nothing)) tt
  = (Returned (PMaybe Nothing), tt, []).
Proof.
  apply (proj1 (apply_on_containers
                  (fun (f : pyval) (a : list pyval) (kw : keywords) (s : unit) =>
                     (Raised (PyException "ValueError" []), s)) tt)).
  reflexivity.
Defined.

(** ** [value_or] *)

(** X5. [value_or(None)] undoes [from_value], and [from_value] undoes
    [value_or(None)] on a container that keeps the invariant. *)
Theorem from_value_value_or_round_trip :
  (forall v : pyval, Maybe_value_or (Maybe_from_value v) PNone = Ret v) /\
  (forall x : Maybe,
      well_formed x = true ->
      exists v : pyval,
        Maybe_value_or x PNone = Ret v /\ Maybe_from_value v = x).
Proof.
  split.
  - intros v. destruct v; reflexivity.
  - intros [v | ] Hx.
    + exists v. split; [ reflexivity | ].
      apply from_value_present. intros ->. discriminate.
    + exists PNone. split; reflexivity.
Qed.

Lemma from_value_value_or_round_trip_witness :
  exists v : pyval,
    Maybe_value_or (Some (PTuple [PInt 1; PNone])) PNone = Ret v /\
    Maybe_from_value v = Some (PTuple [PInt 1; PNone]).
Proof.
  apply (proj2 from_value_value_or_round_trip). reflexivity.
Defined.

(** X6. [value_or] is [or_else_call] of a function that only returns the
    default: [x.value_or(d)] is [x.or_else_call(lambda: d)]; and where
    [unwrap] returns, both return what it returns. *)
Theorem value_or_or_else_call (x : Maybe) (default_value : pyval) :
  Maybe_value_or x default_value
  = Maybe_or_else_call x (lambda0 (Ret default_value)) /\
  (forall (v : pyval) (function : callable),
      Maybe_unwrap x = Ret v ->
      Maybe_value_or x default_value = Ret v /\
      Maybe_or_else_call x function = Ret v).
Proof.
  split.
  - destruct x; reflexivity.
  - intros v function H. destruct x as [w | ]; [ | discriminate ].
    simpl in H. injection H as ->. split; reflexivity.
Qed.

Lemma value_or_or_else_call_witness :
  Maybe_value_or (Some (PInt 0)) (PInt 1) = Ret (PInt 0) /\
  Maybe_or_else_call (Some (PInt 0)) (py_call (PFun "fallback")) = Ret (PInt 0).
Proof.
  apply (proj2 (value_or_or_else_call (Some (PInt 0)) (PInt 1))).
  reflexivity.
Defined.

(** X7. The decorator is undone by [value_or(None)]: no host can tell
    [maybe(f)(args).value_or(None)] from [f(args)]. *)
Theorem maybe_value_or_round_trip (function : callable) (args : list pyval)
        (kwargs : keywords) :
  same_runs (o <- maybe function args kwargs ;; method_value_or o PNone)
            (function args kwargs).
Proof.
  intros State host s.
  unfold maybe, decorator. rewrite !run_pbind.
  destruct (run host (function args kwargs) s) as [[[r | e] s1] tr];
    [ | reflexivity ].
  destruct r; simpl; rewrite ?app_nil_r; reflexivity.
Qed.

(** A run of the decorated function is the run of the function, with the
    value it returned normalised. *)
Lemma run_maybe {State : Type}
      (host : pyval -> list pyval -> keywords -> State -> outcome pyval * State)
      (function : callable) (args : list pyval) (kwargs : keywords) (s : State) :
  run host (maybe function args kwargs) s =
  match run host (function args kwargs) s with
  | (Returned r, s1, tr) => (Returned (PMaybe (Maybe_from_value r)), s1, tr)
  | (Raised e, s1, tr) => (Raised e, s1, tr)
  end.
Proof.
  unfold maybe, decorator. rewrite run_pbind.
  destruct (run host (function args kwargs) s) as [[[r | e] s1] tr]; simpl;
    [ rewrite app_nil_r | ]; reflexivity.
Qed.

(** ** The invariant *)

(** X8. A container returned by [map], by [apply] on a container, or by a
    decorated function never holds [None], whatever the functions return and
    whatever the containers they are called on hold. *)
Theorem results_keep_invariant {State : Type}
        (host : pyval -> list pyval -> keywords -> State -> outcome pyval * State)
        (s s1 : State) (tr : list event) :
  (forall (x y : Maybe) (function : callable),
      run host (Maybe_map x function) s = (Returned y, s1, tr) ->
      well_formed y = true) /\
  (forall (x c : Maybe) (o : pyval),
      run host (Maybe_apply x (PMaybe c)) s = (Returned o, s1, tr) ->
      exists y : Maybe, o = PMaybe y /\ well_formed y = true) /\
  (forall (function : callable) (args : list pyval) (kwargs : keywords)
          (o : pyval),
      run host (maybe function args kwargs) s = (Returned o, s1, tr) ->
      exists y : Maybe, o = PMaybe y /\ well_formed y = true).
Proof.
  split; [ | split ].
  - intros [v | ] y function Hrun.
    + change (SomeObj v) with (_Some v) in Hrun.
      rewrite run_Some_map in Hrun.
      destruct (run host (function [v] []) s) as [[[r | e] s2] tr2];
        [ | discriminate ].
      injection Hrun as <- _ _. apply from_value_well_formed.
    + simpl in Hrun. injection Hrun as <- _ _. reflexivity.
  - intros [v | ] [g | ] o Hrun; simpl in Hrun.
    + destruct (host g [v] [] s) as [[r | e] s2]; [ | discriminate ].
      simpl in Hrun. injection Hrun as <- _ _.
      eexists. split; [ reflexivity | apply from_value_well_formed ].
    + injection Hrun as <- _ _. exists NothingObj. split; reflexivity.
    + injection Hrun as <- _ _. exists NothingObj. split; reflexivity.
    + injection Hrun as <- _ _. exists NothingObj. split; reflexivity.
  - intros function args kwargs o Hrun.
    rewrite run_maybe in Hrun.
    destruct (run host (function args kwargs) s) as [[[r | e] s2] tr2];
      [ | discriminate ].
    injection Hrun as <- _ _.
    eexists. split; [ reflexivity | apply from_value_well_formed ].
Qed.

Lemma results_keep_invariant_witness :
  well_formed Nothing = true.
Proof.
  apply (proj1 (results_keep_invariant
                  (fun (f : pyval) (a : list pyval) (kw : keywords) (s : unit) =>
                     (Returned PNone, s))
                  tt tt [mkEvent (PFun "f") [PInt 1] [] (Returned PNone)])
           (Some (PInt 1)) Nothing (py_call (PFun "f"))).
  reflexivity.
Defined.

(** ** When the law of composition holds *)

(** X9. On [_Some(v)], for pure [f] and [g], [map(f).map(g)] and
    [map(compose(g, f))] return the same container exactly when [f(v)] is
    not [None] or [g(None)] is [None]: [map] normalises after [f], so a
    [None] of [f] never reaches [g]. *)
Theorem functor_composition_exactly_when (v : pyval) (f g : pyval -> pyval) :
  (y <- Maybe_map (_Some v) (pure1 f) ;; Maybe_map y (pure1 g))
  = Maybe_map (_Some v) (compose (pure1 g) (pure1 f))
  <-> (f v <> PNone \/ g PNone = PNone).
Proof.
  assert (R : Maybe_map (_Some v) (compose (pure1 g) (pure1 f))
              = Ret (Maybe_from_value (g (f v)))) by reflexivity.
  assert (L : (y <- Maybe_map (_Some v) (pure1 f) ;; Maybe_map y (pure1 g))
              = Maybe_map (Maybe_from_value (f v)) (pure1 g)) by reflexivity.
  rewrite R, L. clear R L.
  destruct (is_None (f v)) eqn:Hf.
  - apply is_None_true in Hf. rewrite Hf. simpl.
    split.
    + intros E. right. injection E as E.
      destruct (g PNone); try discriminate. reflexivity.
    + intros [H | H]; [ contradiction | ].
      rewrite H. reflexivity.
  - apply is_None_false in Hf.
    rewrite (from_value_present (f v) Hf), map_pure1.
    split; [ intros _; left; exact Hf | intros _; reflexivity ].
Qed.
